(** * Poe2-auto-logout: the sampling and decision loop of [import.py]

    A shallow embedding of the orb monitor: the HSV masks of the colour
    analysis, the per-cycle decision of [monitor_function], and the
    [start_monitoring] / [stop_monitoring] control surface.

    Conventions of the embedding.
    - The module-level globals of the script and the three Tk widgets it
      touches are the fields of one record, [World]; every function of the
      script that reads or writes them takes and returns a [World].
    - An image is the flattened list of its three-channel pixels; a channel
      is a [Z] (the arrays are [uint8], so 0..255).
    - Python floats ([percent], [max_val], the literals 0.1 and 0.7) are read
      as the rationals they denote, in [Q]; rounding is not modelled.
    - What the script obtains from OpenCV, mss and the file system (the
      colour conversion, the template match, the grabbed pixels, the result
      of [imread]) is an input of the model: the colour conversion is a
      section variable, the rest is the [Env] handed to each thread step.
    - One iteration of the [while monitoring] loop is one atomic step;
      controller commands interleave between iterations. *)

From Stdlib Require Import ZArith QArith List String Ascii Bool Lia.
Import ListNotations.
Local Open Scope string_scope.
Local Open Scope list_scope.
Local Open Scope Z_scope.

(** ** Images and masks (numpy arrays as flat lists) *)

Definition pixel : Type := Z * Z * Z.
Definition image : Type := list pixel.
Definition mask : Type := list Z.

Definition within (lo x hi : Z) : bool := (lo <=? x) && (x <=? hi).

(** [cv2.inRange]: 255 where every channel lies between the bounds
    (inclusive), 0 elsewhere. *)
Definition inRange_px (lowerb upperb px : pixel) : Z :=
  let '(l0, l1, l2) := lowerb in
  let '(u0, u1, u2) := upperb in
  let '(x0, x1, x2) := px in
  if within l0 x0 u0 && within l1 x1 u1 && within l2 x2 u2 then 255 else 0.

Definition inRange (src : image) (lowerb upperb : pixel) : mask :=
  map (inRange_px lowerb upperb) src.

(** [cv2.bitwise_or] on two masks of the same image. *)
Definition bitwise_or (m1 m2 : mask) : mask :=
  map (fun ab => Z.lor (fst ab) (snd ab)) (combine m1 m2).

Definition nonzero (v : Z) : bool := negb (v =? 0).

Definition countNonZero (m : mask) : Z := Z.of_nat (List.length (filter nonzero m)).

(** [mask.size] *)
Definition size (m : mask) : Z := Z.of_nat (List.length m).

(** Python's [a / b] on two ints: [None] stands for [ZeroDivisionError]. *)
Definition true_div (a b : Z) : option Q :=
  if b =? 0 then None else Some (inject_Z a / inject_Z b)%Q.

Definition Qgt_bool (a b : Q) : bool := negb (Qle_bool a b).

(** A reference BGR to HSV conversion for 8-bit images, after the formula
    OpenCV documents (V = max, S = 255 (V - min) / V, H = half the hue angle,
    rounded to nearest).  It instantiates the section variable below in the
    worked examples; no theorem depends on its details. *)
Definition round_div (a b : Z) : Z := (2 * a + b) / (2 * b).

Definition hsv_of_bgr (px : pixel) : pixel :=
  let '(b, g, r) := px in
  let v := Z.max b (Z.max g r) in
  let diff := v - Z.min b (Z.min g r) in
  let s := if v =? 0 then 0 else round_div (255 * diff) v in
  let h :=
    if diff =? 0 then 0
    else if v =? r then round_div (30 * (g - b)) diff
    else if v =? g then 60 + round_div (30 * (b - r)) diff
    else 120 + round_div (30 * (r - g)) diff in
  (if h <? 0 then h + 180 else h, s, v).

Inductive Orb : Type := mana | life.

Section ColorAnalyzer.

(** [cv2.cvtColor(_, cv2.COLOR_BGR2HSV)], pixel by pixel. *)
Variable bgr2hsv : pixel -> pixel.

Definition cvtColor_BGR2HSV (img : image) : image := map bgr2hsv img.

Definition get_blue_mask (orb_img : image) : mask :=
  let hsv := cvtColor_BGR2HSV orb_img in
  let lower_blue := (70, 40, 40) in
  let upper_blue := (180, 255, 255) in
  inRange hsv lower_blue upper_blue.

Definition get_red_mask (orb_img : image) : mask :=
  let hsv := cvtColor_BGR2HSV orb_img in
  let lower_red1 := (0, 50, 50) in
  let upper_red1 := (10, 255, 255) in
  let mask1 := inRange hsv lower_red1 upper_red1 in
  let lower_red2 := (170, 50, 50) in
  let upper_red2 := (180, 255, 255) in
  let mask2 := inRange hsv lower_red2 upper_red2 in
  bitwise_or mask1 mask2.

Definition get_green_mask (orb_img : image) : mask :=
  let hsv := cvtColor_BGR2HSV orb_img in
  let lower_green := (40, 50, 50) in
  let upper_green := (90, 255, 255) in
  inRange hsv lower_green upper_green.

(** Step 5 of the loop body: the mask of the selected orb. *)
Definition orb_mask (monitor_option : Orb) (orb_img : image) : mask :=
  match monitor_option with
  | mana => get_blue_mask orb_img
  | life =>
      let red_mask := get_red_mask orb_img in
      let green_mask := get_green_mask orb_img in
      bitwise_or red_mask green_mask
  end.

(** [percent = (pixel_count / total_pixels) * 100] *)
Definition percent_of_mask (m : mask) : option Q :=
  let pixel_count := countNonZero m in
  let total_pixels := size m in
  match true_div pixel_count total_pixels with
  | Some q => Some (q * inject_Z 100)%Q
  | None => None
  end.

Definition orb_percent (monitor_option : Orb) (orb_img : image) : option Q :=
  percent_of_mask (orb_mask monitor_option orb_img).

End ColorAnalyzer.

(** ** Parsing the threshold entry: Python's [int(str)] on ASCII text

    Leading and trailing whitespace is dropped, one sign is allowed, and the
    digits may be grouped by single underscores.  [None] stands for
    [ValueError].  (Non-ASCII digits and the interpreter's configurable cap on
    the number of digits are outside the model.) *)

Definition is_space (c : ascii) : bool :=
  let n := Z.of_nat (nat_of_ascii c) in
  within 9 n 13 || within 28 n 32.

Definition digit_of (c : ascii) : option Z :=
  let n := Z.of_nat (nat_of_ascii c) in
  if within 48 n 57 then Some (n - 48) else None.

Fixpoint lstrip (s : list ascii) : list ascii :=
  match s with
  | c :: s' => if is_space c then lstrip s' else s
  | [] => []
  end.

Definition strip (s : list ascii) : list ascii := rev (lstrip (rev (lstrip s))).

(** [after_digit] says that the previous character was a digit, so that an
    underscore or the end of the text may follow. *)
Fixpoint digits (acc : Z) (after_digit : bool) (s : list ascii) : option Z :=
  match s with
  | [] => if after_digit then Some acc else None
  | c :: s' =>
      match digit_of c with
      | Some d => digits (10 * acc + d) true s'
      | None =>
          if Ascii.eqb c "_"%char && after_digit then digits acc false s' else None
      end
  end.

Definition py_int (text : string) : option Z :=
  match strip (list_ascii_of_string text) with
  | c :: s' =>
      if Ascii.eqb c "-"%char then option_map Z.opp (digits 0 false s')
      else if Ascii.eqb c "+"%char then digits 0 false s'
      else digits 0 false (c :: s')
  | [] => None
  end.

(** ** The shared state: globals, widgets, threads, observable effects *)

Inductive Key : Type := esc | f9.

(** The lines the script prints, by kind. *)
Inductive console_line : Type :=
| template_error (file : string)
| thread_started
| match_line (opt : Orb) (percent max_val : Q)
| trigger_line (opt : Orb) (threshold : Z) (k : Key)
| no_match_line (opt : Orb) (max_val : Q)
| thread_terminated.

Inductive region : Type :=
| Monitor1
| Rect (top left width height : Z).

Inductive event : Type :=
| ev_imread (file : string) (found : bool)
| ev_print (line : console_line)
| ev_grab (r : region)
| ev_status (message color : string)
| ev_press (k : Key)
| ev_button (text : string)
| ev_sleep.

Inductive exit_kind : Type := returned | raised (exn : string).

(** A sampling thread: created by [start_monitoring], then either inside the
    [while] loop (holding the shapes [(h, w)] of its two templates) or gone. *)
Inductive thread : Type :=
| Spawned
| Looping (mana_shape life_shape : Z * Z)
| Exited (how : exit_kind).

Record World : Type := mkWorld {
  monitoring : bool;
  monitor_option : Orb;
  monitor_thread : option nat;
  color_threshold : Z;
  protection_blocked : bool;
  trigger_key : Key;
  status_label : string * string;
  threshold_entry : string;
  toggle_btn : string;
  threads : list thread;
  trace : list event
}.

Definition set_monitoring (b : bool) (w : World) : World :=
  let 'mkWorld _ opt mt thr latch key lbl entry btn ths tr := w in
  mkWorld b opt mt thr latch key lbl entry btn ths tr.

Definition set_monitor_option (o : Orb) (w : World) : World :=
  let 'mkWorld mon _ mt thr latch key lbl entry btn ths tr := w in
  mkWorld mon o mt thr latch key lbl entry btn ths tr.

Definition set_color_threshold (n : Z) (w : World) : World :=
  let 'mkWorld mon opt mt _ latch key lbl entry btn ths tr := w in
  mkWorld mon opt mt n latch key lbl entry btn ths tr.

Definition set_protection_blocked (b : bool) (w : World) : World :=
  let 'mkWorld mon opt mt thr _ key lbl entry btn ths tr := w in
  mkWorld mon opt mt thr b key lbl entry btn ths tr.

Definition set_trigger_key (k : Key) (w : World) : World :=
  let 'mkWorld mon opt mt thr latch _ lbl entry btn ths tr := w in
  mkWorld mon opt mt thr latch k lbl entry btn ths tr.

Definition set_status_label (l : string * string) (w : World) : World :=
  let 'mkWorld mon opt mt thr latch key _ entry btn ths tr := w in
  mkWorld mon opt mt thr latch key l entry btn ths tr.

Definition set_threshold_entry (s : string) (w : World) : World :=
  let 'mkWorld mon opt mt thr latch key lbl _ btn ths tr := w in
  mkWorld mon opt mt thr latch key lbl s btn ths tr.

Definition set_toggle_btn (s : string) (w : World) : World :=
  let 'mkWorld mon opt mt thr latch key lbl entry _ ths tr := w in
  mkWorld mon opt mt thr latch key lbl entry s ths tr.

Definition set_threads (t : option nat) (ts : list thread) (w : World) : World :=
  let 'mkWorld mon opt _ thr latch key lbl entry btn _ tr := w in
  mkWorld mon opt t thr latch key lbl entry btn ts tr.

(** Effects are appended to the trace in the order they happen. *)
Definition emit (e : event) (w : World) : World :=
  let 'mkWorld mon opt mt thr latch key lbl entry btn ths tr := w in
  mkWorld mon opt mt thr latch key lbl entry btn ths (tr ++ [e]).

(** The state [main] builds before the Tk main loop takes over. *)
Definition initial : World :=
  mkWorld false mana None 10 false esc ("Monitoring stopped", "") "10" "Start" [] [].

(** [update_status]: the label exists from [main] on, so the guard
    [if status_label] holds; it is configured through [after(0, ...)], the
    callbacks run in the order they were queued, and the label here shows the
    latest one at once. *)
Definition update_status (message color : string) (w : World) : World :=
  emit (ev_status message color) (set_status_label (message, color) w).

(** [toggle_btn.config(text=...)] *)
Definition toggle_btn_config (text : string) (w : World) : World :=
  emit (ev_button text) (set_toggle_btn text w).

(** What one thread step finds outside the program: the two template files
    ([None] when [imread] returns [None], else the shape [(h, w)]), the best
    template match on the screen, and the pixels grabbed at that place. *)
Record Env : Type := mkEnv {
  mana_png : option (Z * Z);
  life_png : option (Z * Z);
  max_val : Q;
  max_loc : Z * Z;
  orb_img : image
}.

(** How an iteration of the loop body ends. *)
Inductive flow : Type := Continue | Break | Raise (exn : string).

Definition template_threshold : Q := 7 # 10.

(** The branch on [percent], lines 161-176 of [monitor_function]. *)
Definition react (percent : Q) (w : World) : World * flow :=
  if negb (protection_blocked w) then
    if Qgt_bool percent (inject_Z (color_threshold w)) then
      (update_status "PROTECTED" "green" w, Continue)
    else if Qgt_bool percent (1 # 10) then
      let w := update_status "UNPROTECTED" "red" w in
      let w := emit (ev_print (trigger_line (monitor_option w) (color_threshold w) (trigger_key w))) w in
      let w := emit (ev_press (trigger_key w)) w in
      let w := set_protection_blocked true w in
      let w := set_monitoring false w in
      let w := toggle_btn_config "Start" w in
      (w, Break)
    else
      (update_status "Orbs not detected" "blue" w, Continue)
  else
    (update_status "UNPROTECTED" "red" w, Continue).

Section DecisionEngine.

Variable bgr2hsv : pixel -> pixel.

(** One iteration of the body of [while monitoring], up to the [sleep]. *)
Definition cycle (mana_shape life_shape : Z * Z) (env : Env) (w : World) : World * flow :=
  let w := emit (ev_grab Monitor1) w in
  let '(t_h, t_w) :=
    match monitor_option w with mana => mana_shape | life => life_shape end in
  if Qle_bool template_threshold (max_val env) then
    let '(x, y) := max_loc env in
    let w := emit (ev_grab (Rect y x t_w t_h)) w in
    match orb_percent bgr2hsv (monitor_option w) (orb_img env) with
    | None => (w, Raise "ZeroDivisionError")
    | Some percent =>
        let w := emit (ev_print (match_line (monitor_option w) percent (max_val env))) w in
        react percent w
    end
  else
    let w := emit (ev_print (no_match_line (monitor_option w) (max_val env))) w in
    (update_status "Orbs not detected" "blue" w, Continue).

(** The part of [monitor_function] before the loop: both templates are read,
    and the thread returns if either is missing. *)
Definition found (f : option (Z * Z)) : bool :=
  match f with Some _ => true | None => false end.

Definition load_templates (env : Env) (w : World) : World * thread :=
  let w := emit (ev_imread "mana_template.png" (found (mana_png env))) w in
  let w := emit (ev_imread "life_template.png" (found (life_png env))) w in
  match mana_png env with
  | None => (emit (ev_print (template_error "mana_template.png")) w, Exited returned)
  | Some mana_shape =>
      match life_png env with
      | None => (emit (ev_print (template_error "life_template.png")) w, Exited returned)
      | Some life_shape => (emit (ev_print thread_started) w, Looping mana_shape life_shape)
      end
  end.

Fixpoint replace_nth (n : nat) (t : thread) (ts : list thread) : list thread :=
  match ts, n with
  | [], _ => []
  | _ :: ts', O => t :: ts'
  | t0 :: ts', S n' => t0 :: replace_nth n' t ts'
  end.

Definition become (tid : nat) (t : thread) (w : World) : World :=
  set_threads (monitor_thread w) (replace_nth tid t (threads w)) w.

(** [monitor_function], one step of the thread [tid]: its prologue when it
    has just been spawned; when it is in the loop, the test of [monitoring]
    followed by either one iteration or the exit from the loop. *)
Definition monitor_function (tid : nat) (env : Env) (w : World) : World :=
  match nth_error (threads w) tid with
  | Some Spawned =>
      let '(w, t) := load_templates env w in become tid t w
  | Some (Looping mana_shape life_shape) =>
      if monitoring w then
        match cycle mana_shape life_shape env w with
        | (w, Continue) => emit ev_sleep w
        | (w, Break) => become tid (Exited returned) (emit (ev_print thread_terminated) w)
        | (w, Raise exn) => become tid (Exited (raised exn)) w
        end
      else become tid (Exited returned) (emit (ev_print thread_terminated) w)
  | Some (Exited _) | None => w
  end.

(** ** The control surface *)

Definition start_monitoring (w : World) : World :=
  if negb (monitoring w) then
    let w :=
      match py_int (threshold_entry w) with
      | Some n => set_color_threshold n w
      | None => set_threshold_entry "10" (set_color_threshold 10 w)
      end in
    let w := set_protection_blocked false w in
    let w := set_monitoring true w in
    set_threads (Some (List.length (threads w))) (threads w ++ [Spawned]) w
  else w.

Definition stop_monitoring (w : World) : World := set_monitoring false w.

Definition toggle_monitoring (w : World) : World :=
  if monitoring w then
    let w := stop_monitoring w in
    let w := toggle_btn_config "Start" w in
    update_status "Monitoring stopped" "black" w
  else
    let w := start_monitoring w in
    toggle_btn_config "Stop" w.

Definition set_option_mana (w : World) : World := set_monitor_option mana w.
Definition set_option_life (w : World) : World := set_monitor_option life w.
Definition set_trigger_esc (w : World) : World := set_trigger_key esc w.
Definition set_trigger_f9 (w : World) : World := set_trigger_key f9 w.

(** What the user and the scheduler can do next. *)
Inductive command : Type :=
| start
| stop
| toggle
| option_mana
| option_life
| trigger_esc
| trigger_f9
| type_threshold (text : string).

Inductive input : Type :=
| Cmd (c : command)
| Sched (tid : nat) (env : Env).

Definition command_step (c : command) (w : World) : World :=
  match c with
  | start => start_monitoring w
  | stop => stop_monitoring w
  | toggle => toggle_monitoring w
  | option_mana => set_option_mana w
  | option_life => set_option_life w
  | trigger_esc => set_trigger_esc w
  | trigger_f9 => set_trigger_f9 w
  | type_threshold text => set_threshold_entry text w
  end.

Definition step (w : World) (i : input) : World :=
  match i with
  | Cmd c => command_step c w
  | Sched tid env => monitor_function tid env w
  end.

Definition run (ins : list input) (w : World) : World := fold_left step ins w.

(** ** Observations on a trace *)

Definition pressed_keys (t : list event) : list Key :=
  flat_map (fun e => match e with ev_press k => [k] | _ => [] end) t.

Definition statuses (t : list event) : list (string * string) :=
  flat_map (fun e => match e with ev_status m c => [(m, c)] | _ => [] end) t.

Definition grabs (t : list event) : list region :=
  flat_map (fun e => match e with ev_grab r => [r] | _ => [] end) t.

Definition reads_of (file : string) (t : list event) : nat :=
  List.length
    (filter (fun e => match e with ev_imread f _ => String.eqb f file | _ => false end) t).

Definition presses (w : World) : list Key := pressed_keys (trace w).

(** A command that begins a new run: [start] (directly, or through the
    button) while the run flag is down. *)
Definition starts_run (i : input) (w : World) : bool :=
  match i with
  | Cmd start | Cmd toggle => negb (monitoring w)
  | _ => false
  end.

Fixpoint runs_started (ins : list input) (w : World) : nat :=
  match ins with
  | [] => 0
  | i :: ins' => ((if starts_run i w then 1 else 0) + runs_started ins' (step w i))%nat
  end.



(** The thread [tid] has left the loop after a trigger. *)
Definition halted (tid : nat) (w : World) : Prop :=
  nth_error (threads w) tid = Some (Exited returned) /\
  monitoring w = false /\ protection_blocked w = true.

(** The thread [tid] is still in the loop, the run flag up, the latch down. *)
Definition sampling (tid : nat) (w : World) : Prop :=
  (exists sm sl, nth_error (threads w) tid = Some (Looping sm sl)) /\
  monitoring w = true /\ protection_blocked w = false.



(** ** Concrete pixels, screens and schedules used in the examples *)

Definition black : pixel := (0, 0, 0).
Definition blue : pixel := (255, 0, 0).
Definition red_low : pixel := (10, 20, 200).
Definition red_high : pixel := (30, 20, 200).
Definition cyan : pixel := (200, 200, 0).

(** A screen on which the orb is found with confidence 0.9 at (3, 4), [n]
    of its [total] pixels being blue. *)
Definition orb_seen (n total : nat) : Env :=
  mkEnv (Some (40, 50)) (Some (40, 50)) (9 # 10) (3, 4)
    (repeat blue n ++ repeat black (total - n)).

Definition mana_file_missing : Env :=
  mkEnv None (Some (40, 50)) (9 # 10) (3, 4) [blue].

Definition two_runs : list input :=
  [Cmd start; Sched 0 (orb_seen 5 100); Sched 0 (orb_seen 5 100);
   Cmd start; Sched 1 (orb_seen 5 100); Sched 1 (orb_seen 5 100)].

(** A run started with the threshold entry set to 0, its thread in the
    loop. *)
Definition zero_threshold_run : World :=
  run [Cmd (type_threshold "0"); Cmd start; Sched 0 (orb_seen 1 1)] initial.

(** A run started from the initial state, its thread inside the loop. *)
Definition looping_run : World :=
  run [Cmd start; Sched 0 (orb_seen 1 1)] initial.


(** A run just started, its thread not yet scheduled. *)
Definition fresh_run : World := start_monitoring initial.

(** ** Readings, window inputs and entry characters *)







(** Membership of a hue in the bands of the life orb. *)
Definition life_hue (h : Z) : bool :=
  within 0 h 10 || within 40 h 90 || within 170 h 180.

(** A screen on which the best match scores 0.5. *)
Definition orb_not_seen : Env :=
  mkEnv (Some (40, 50)) (Some (40, 50)) (1 # 2) (0, 0) [].

(** A run started with the threshold entry set to 100, its thread in the
    loop. *)
Definition full_threshold_run : World :=
  run [Cmd (type_threshold "100"); Cmd start; Sched 0 (orb_seen 1 1)] initial.

(** * Properties *)

(** ** Masks and the fill percentage *)

Lemma nth_error_bitwise_or (m1 m2 : mask) (i : nat) (a b : Z) :
  nth_error m1 i = Some a -> nth_error m2 i = Some b ->
  nth_error (bitwise_or m1 m2) i = Some (Z.lor a b).
Proof.
  revert m2 i; induction m1 as [|x m1 IH]; intros [|y m2] [|i] H1 H2;
    simpl in *; try discriminate.
  - congruence.
  - now apply IH.
Qed.

Lemma length_bitwise_or (m1 m2 : mask) :
  List.length m1 = List.length m2 -> List.length (bitwise_or m1 m2) = List.length m1.
Proof.
  intros H; unfold bitwise_or.
  rewrite length_map, length_combine, <- H. apply Nat.min_id.
Qed.

Lemma length_orb_mask (opt : Orb) (img : image) :
  List.length (orb_mask bgr2hsv opt img) = List.length img.
Proof.
  destruct opt; simpl;
    unfold get_blue_mask, get_red_mask, get_green_mask, inRange, cvtColor_BGR2HSV;
    repeat (rewrite ?length_bitwise_or, ?length_map; try reflexivity).
Qed.

Lemma countNonZero_bounds (m : mask) : 0 <= countNonZero m <= size m.
Proof.
  unfold countNonZero, size; induction m as [|v m IH]; simpl; [lia|].
  destruct (nonzero v); simpl; lia.
Qed.



Lemma percent_of_mask_value (m : mask) :
  m <> [] ->
  exists p, percent_of_mask m = Some p /\
    (p == inject_Z (countNonZero m) / inject_Z (size m) * inject_Z 100)%Q /\
    (0 <= p <= inject_Z 100)%Q.
Proof.
  intros Hm. pose proof (countNonZero_bounds m) as Hc.
  assert (Hs : 0 < size m) by (unfold size; destruct m; [congruence | simpl; lia]).
  unfold percent_of_mask, true_div.
  destruct (size m =? 0) eqn:E; [apply Z.eqb_eq in E; lia|].
  eexists; split; [reflexivity|]; split; [reflexivity|].
  destruct (size m) as [|t|t]; try lia.
  unfold Qle, Qdiv, Qmult, Qinv, inject_Z; simpl. nia.
Qed.



Lemma red_mask_at (img : image) (i : nat) (px : pixel) :
  nth_error img i = Some px ->
  nth_error (get_red_mask bgr2hsv img) i =
    Some (Z.lor (inRange_px (0, 50, 50) (10, 255, 255) (bgr2hsv px))
                (inRange_px (170, 50, 50) (180, 255, 255) (bgr2hsv px))).
Proof.
  intros H. unfold get_red_mask, inRange, cvtColor_BGR2HSV.
  apply nth_error_bitwise_or; now do 2 apply map_nth_error.
Qed.

Ltac split_leb :=
  repeat match goal with
         | |- context [?a <=? ?b] => destruct (Z.leb_spec a b); simpl; try lia
         end.

(** C6. In the red mask a pixel whose hue lies in [0, 10] or in [170, 180]
    (saturation and value between the floor 50 and 255) is set, so hue 2 and
    hue 178 are both red, while a pixel of hue 90 is not. *)
Theorem red_mask_hue_wrap (img : image) (i : nat) (px : pixel) (h s v : Z) :
  nth_error img i = Some px ->
  bgr2hsv px = (h, s, v) ->
  50 <= s <= 255 ->
  50 <= v <= 255 ->
  (0 <= h <= 10 \/ 170 <= h <= 180 ->
     nth_error (get_red_mask bgr2hsv img) i = Some 255) /\
  (h = 2 \/ h = 178 -> nth_error (get_red_mask bgr2hsv img) i = Some 255) /\
  (h = 90 -> nth_error (get_red_mask bgr2hsv img) i = Some 0).
Proof.
  intros Hi Hpx Hs Hv. rewrite (red_mask_at img i px Hi), Hpx.
  unfold inRange_px, within.
  repeat split; intros Hh; split_leb; reflexivity.
Qed.

(** ** The decision of one cycle *)

Lemma Qgt_bool_true (a b : Q) : Qgt_bool a b = true <-> (b < a)%Q.
Proof.
  unfold Qgt_bool. rewrite negb_true_iff. split; intros H.
  - apply Qnot_le_lt. intros Hle. apply Qle_bool_iff in Hle. congruence.
  - destruct (Qle_bool a b) eqn:E; [|reflexivity].
    apply Qle_bool_iff in E. exfalso. exact (Qlt_not_le _ _ H E).
Qed.

Lemma Qgt_bool_false (a b : Q) : Qgt_bool a b = false <-> (a <= b)%Q.
Proof.
  unfold Qgt_bool. rewrite negb_false_iff. apply Qle_bool_iff.
Qed.

Lemma nth_error_replace_nth (ts : list thread) (i : nat) (t0 t : thread) :
  nth_error ts i = Some t0 -> nth_error (replace_nth i t ts) i = Some t.
Proof.
  revert i; induction ts as [|x ts IH]; intros [|i] H; simpl in *;
    try discriminate; [reflexivity | now apply IH].
Qed.

Lemma nth_error_replace_nth_other (ts : list thread) (i j : nat) (t : thread) :
  i <> j -> nth_error (replace_nth i t ts) j = nth_error ts j.
Proof.
  revert i j; induction ts as [|x ts IH]; intros [|i] [|j] H; simpl;
    try reflexivity; [congruence | apply IH; congruence].
Qed.

Lemma length_replace_nth (ts : list thread) (i : nat) (t : thread) :
  List.length (replace_nth i t ts) = List.length ts.
Proof.
  revert i; induction ts as [|x ts IH]; intros [|i]; simpl; auto.
Qed.

Lemma pressed_keys_app (t1 t2 : list event) :
  pressed_keys (t1 ++ t2) = pressed_keys t1 ++ pressed_keys t2.
Proof. apply flat_map_app. Qed.

Lemma statuses_app (t1 t2 : list event) :
  statuses (t1 ++ t2) = statuses t1 ++ statuses t2.
Proof. apply flat_map_app. Qed.

Lemma grabs_app (t1 t2 : list event) : grabs (t1 ++ t2) = grabs t1 ++ grabs t2.
Proof. apply flat_map_app. Qed.

Ltac world_simpl :=
  unfold presses in *; simpl in *;
  rewrite ?pressed_keys_app, ?statuses_app, ?grabs_app in *; simpl in *;
  rewrite ?app_nil_r in *.

(** What a thread step does when the orb is found and the latch is down:
    the three outcomes of the comparison of [percent]. *)
Lemma found_cycle (tid : nat) (env : Env) (w : World) (sm sl : Z * Z) (p : Q) :
  nth_error (threads w) tid = Some (Looping sm sl) ->
  monitoring w = true ->
  (template_threshold <= max_val env)%Q ->
  protection_blocked w = false ->
  orb_percent bgr2hsv (monitor_option w) (orb_img env) = Some p ->
  let w' := monitor_function tid env w in
  if Qgt_bool p (inject_Z (color_threshold w)) then
    status_label w' = ("PROTECTED", "green") /\ presses w' = presses w /\ sampling tid w'
  else if Qgt_bool p (1 # 10) then
    status_label w' = ("UNPROTECTED", "red") /\
    presses w' = presses w ++ [trigger_key w] /\ halted tid w'
  else
    status_label w' = ("Orbs not detected", "blue") /\ presses w' = presses w /\
    sampling tid w'.
Proof.
  intros Hth Hmon Hconf Hlatch Hp w'. subst w'.
  apply Qle_bool_iff in Hconf.
  destruct w as [mon opt mt thr latch key lbl entry btn ths tr].
  simpl in Hth, Hmon, Hlatch, Hp. subst mon latch.
  unfold monitor_function, cycle, react, halted, sampling, presses,
    update_status, toggle_btn_config, become.
  cbn [threads monitoring monitor_option emit]. rewrite Hth, Hconf.
  destruct (max_loc env) as [x y].
  destruct (match opt with mana => sm | life => sl end) as [t_h t_w].
  rewrite Hp. cbn -[Qgt_bool inject_Z].
  destruct (Qgt_bool p (inject_Z thr));
    [|destruct (Qgt_bool p (1 # 10))]; cbn;
    rewrite ?pressed_keys_app; cbn; rewrite ?app_nil_r;
    repeat split; eauto using nth_error_replace_nth.
Qed.


(** ** The latch across steps and runs *)

(** Split on the innermost scrutinee of a [match] in the goal. *)
Ltac break_match :=
  match goal with
  | |- context [match ?x with _ => _ end] =>
      lazymatch x with
      | context [match _ with _ => _ end] => fail
      | _ => destruct x eqn:?; simpl in *
      end
  end.

(** Case analysis over every command and every path through a thread step,
    for each value of the run flag and of the latch. *)
Ltac step_cases w i :=
  destruct i as [[| | | | | | |text] | tid env];
  destruct w as [mon opt mt thr latch key lbl entry btn ths tr];
  destruct mon, latch;
  unfold step, command_step, toggle_monitoring, start_monitoring, stop_monitoring,
    set_option_mana, set_option_life, set_trigger_esc, set_trigger_f9,
    monitor_function, load_templates, cycle, react, presses;
  simpl in *; repeat break_match; simpl in *;
  rewrite ?pressed_keys_app, ?statuses_app, ?grabs_app in *; simpl in *;
  rewrite ?app_nil_r in *.

Lemma step_presses (w : World) (i : input) :
  presses (step w i) =
  presses w ++
    (if negb (protection_blocked w) && protection_blocked (step w i)
     then [trigger_key w] else []).
Proof.
  step_cases w i; subst; simpl; rewrite ?app_nil_r; try reflexivity; try discriminate.
Qed.




Lemma start_spawns (w : World) :
  monitoring w = false ->
  let w1 := start_monitoring w in
  monitoring w1 = true /\ protection_blocked w1 = false /\
  threads w1 = threads w ++ [Spawned] /\
  monitor_thread w1 = Some (List.length (threads w)) /\
  presses w1 = presses w /\ trigger_key w1 = trigger_key w /\
  monitor_option w1 = monitor_option w /\ trace w1 = trace w /\
  status_label w1 = status_label w.
Proof.
  destruct w as [mon opt mt thr latch key lbl entry btn ths tr]; simpl.
  intros ->. unfold start_monitoring, presses. simpl.
  destruct (py_int entry); simpl; repeat split; reflexivity.
Qed.








(** ** The control surface *)

Lemma set_monitoring_same (w : World) (b : bool) :
  monitoring w = b -> set_monitoring b w = w.
Proof. destruct w; simpl; intros; subst; reflexivity. Qed.

Lemma stop_lowers (w : World) :
  monitoring (stop_monitoring w) = false /\
  threads (stop_monitoring w) = threads w.
Proof. destruct w; split; reflexivity. Qed.

(** C9. [start_monitoring] with the run flag up returns the state as it is
    (no thread is added); [stop_monitoring] with the flag down returns the
    state as it is; each command applied twice equals the command applied
    once. *)
Theorem start_stop_idempotent (w : World) :
  (monitoring w = true ->
     start_monitoring w = w /\ threads (start_monitoring w) = threads w) /\
  (monitoring w = false -> stop_monitoring w = w) /\
  start_monitoring (start_monitoring w) = start_monitoring w /\
  stop_monitoring (stop_monitoring w) = stop_monitoring w.
Proof.
  split; [|split; [|split]].
  - intros H. unfold start_monitoring. rewrite H. simpl. auto.
  - apply set_monitoring_same.
  - destruct (monitoring w) eqn:E.
    + assert (Hs : start_monitoring w = w)
        by (unfold start_monitoring; now rewrite E).
      now rewrite !Hs.
    + destruct (start_spawns w E) as (M & _).
      unfold start_monitoring at 1. now rewrite M.
  - destruct w; reflexivity.
Qed.


(** ** Template loading *)

(** The prologue of a thread, whatever it finds. *)
Lemma prologue (tid : nat) (env : Env) (w : World) :
  nth_error (threads w) tid = Some Spawned ->
  let w' := monitor_function tid env w in
  exists line t,
    trace w' =
      trace w ++ [ev_imread "mana_template.png" (found (mana_png env));
                  ev_imread "life_template.png" (found (life_png env));
                  ev_print line] /\
    threads w' = replace_nth tid t (threads w) /\
    match mana_png env, life_png env with
    | Some sm, Some sl => line = thread_started /\ t = Looping sm sl
    | None, _ => line = template_error "mana_template.png" /\ t = Exited returned
    | Some _, None => line = template_error "life_template.png" /\ t = Exited returned
    end /\
    monitoring w' = monitoring w /\ protection_blocked w' = protection_blocked w /\
    status_label w' = status_label w /\ toggle_btn w' = toggle_btn w /\
    color_threshold w' = color_threshold w.
Proof.
  destruct w as [mon opt mt thr latch key lbl entry btn ths tr]; simpl.
  intros Hth. unfold monitor_function, load_templates. simpl. rewrite Hth.
  destruct (mana_png env), (life_png env); simpl;
    rewrite <- ?app_assoc; simpl; do 2 eexists;
    (split; [reflexivity|]); (split; [reflexivity|]); repeat split.
Qed.




Lemma threads_emit (e : event) (w : World) : threads (emit e w) = threads w.
Proof. destruct w; reflexivity. Qed.

Lemma threads_become (tid : nat) (t : thread) (w : World) :
  threads (become tid t w) = replace_nth tid t (threads w).
Proof. destruct w; reflexivity. Qed.

Lemma command_threads (c : command) (w : World) :
  threads (command_step c w) = threads w \/
  threads (command_step c w) = threads w ++ [Spawned].
Proof.
  destruct w as [mon opt mt thr latch key lbl entry btn ths tr].
  destruct c; simpl; auto;
    unfold toggle_monitoring, start_monitoring; destruct mon; simpl; auto;
    destruct (py_int entry); simpl; auto.
Qed.

Lemma cycle_threads (sm sl : Z * Z) (env : Env) (w : World) :
  threads (fst (cycle sm sl env w)) = threads w.
Proof.
  destruct w as [mon opt mt thr latch key lbl entry btn ths tr].
  unfold cycle, react; simpl; repeat break_match; reflexivity.
Qed.

Lemma nth_error_snoc_looping (ts : list thread) (j : nat) (sm sl : Z * Z) :
  nth_error (ts ++ [Spawned]) j = Some (Looping sm sl) ->
  nth_error ts j = Some (Looping sm sl).
Proof.
  intros H. destruct (Nat.lt_ge_cases j (List.length ts)) as [Hlt | Hge].
  - now rewrite nth_error_app1 in H.
  - rewrite nth_error_app2 in H by exact Hge.
    destruct (j - List.length ts)%nat as [|[|n]]; simpl in H; discriminate.
Qed.

Lemma nth_error_replace_exited (ts : list thread) (tid j : nat) (how : exit_kind)
      (sm sl : Z * Z) :
  nth_error (replace_nth tid (Exited how) ts) j = Some (Looping sm sl) ->
  nth_error ts j = Some (Looping sm sl).
Proof.
  intros H. destruct (Nat.eq_dec tid j) as [<- | Hne].
  - destruct (nth_error ts tid) as [t0|] eqn:E.
    + rewrite (nth_error_replace_nth _ _ _ _ E) in H. discriminate.
    + exfalso. apply nth_error_None in E.
      assert (Hlen : nth_error (replace_nth tid (Exited how) ts) tid <> None)
        by congruence.
      apply nth_error_Some in Hlen. rewrite length_replace_nth in Hlen. lia.
  - now rewrite nth_error_replace_nth_other in H.
Qed.

(** A thread enters the loop only through a prologue that found both
    templates. *)
Lemma step_enters_loop (w : World) (i : input) (j : nat) (sm sl : Z * Z) :
  nth_error (threads (step w i)) j = Some (Looping sm sl) ->
  nth_error (threads w) j = Some (Looping sm sl) \/
  exists env,
    i = Sched j env /\ nth_error (threads w) j = Some Spawned /\
    mana_png env = Some sm /\ life_png env = Some sl.
Proof.
  destruct i as [c | tid env]; simpl; intros H.
  - left. destruct (command_threads c w) as [E | E]; rewrite E in H;
      [exact H | now apply nth_error_snoc_looping in H].
  - unfold monitor_function in H.
    destruct (nth_error (threads w) tid) as [[| msh lsh | how]|] eqn:E; auto.
    + pose proof (prologue tid env w E) as P. cbv zeta in P.
      unfold monitor_function in P. rewrite E in P.
      destruct P as (line & t & _ & Hts & Hcase & _). rewrite Hts in H.
      destruct (Nat.eq_dec tid j) as [<- | Hne].
      * rewrite (nth_error_replace_nth _ _ _ _ E) in H. inversion H; subst t.
        right. exists env.
        destruct (mana_png env) as [a|], (life_png env) as [b|];
          destruct Hcase as [_ Ht]; try discriminate.
        inversion Ht; subst. auto.
      * rewrite nth_error_replace_nth_other in H by exact Hne. auto.
    + left. destruct (monitoring w).
      * pose proof (cycle_threads msh lsh env w) as Hc.
        destruct (cycle msh lsh env w) as [w1 [| |exn]]; simpl in Hc;
          rewrite ?threads_become, ?threads_emit, Hc in H;
          eauto using nth_error_replace_exited.
      * rewrite threads_become, threads_emit in H.
        eauto using nth_error_replace_exited.
Qed.

(** The screen is grabbed only by a thread that is inside the loop. *)
Lemma step_grabs (w : World) (i : input) :
  grabs (trace (step w i)) <> grabs (trace w) ->
  exists tid env sm sl,
    i = Sched tid env /\ nth_error (threads w) tid = Some (Looping sm sl) /\
    monitoring w = true.
Proof.
  step_cases w i; intros H; try (exfalso; apply H; reflexivity);
    subst; repeat eexists; eassumption.
Qed.

(** C4 (amended). The two templates are read by the sampling thread at the
    start of every run, before it grabs anything: its first step reads both
    files and prints one line.  If either file is missing that line names it,
    the thread returns (it does not raise), and run flag, latch, status
    label, button and threshold are left as they were; otherwise the thread
    enters the loop.  No thread enters the loop any other way, and only a
    thread inside the loop grabs the screen. *)
Theorem templates_loaded_by_each_run :
  (forall tid env w,
      nth_error (threads w) tid = Some Spawned ->
      let w' := monitor_function tid env w in
      exists line t,
        trace w' =
          trace w ++ [ev_imread "mana_template.png" (found (mana_png env));
                      ev_imread "life_template.png" (found (life_png env));
                      ev_print line] /\
        threads w' = replace_nth tid t (threads w) /\
        match mana_png env, life_png env with
        | Some sm, Some sl => line = thread_started /\ t = Looping sm sl
        | None, _ => line = template_error "mana_template.png" /\ t = Exited returned
        | Some _, None => line = template_error "life_template.png" /\ t = Exited returned
        end /\
        monitoring w' = monitoring w /\ protection_blocked w' = protection_blocked w /\
        status_label w' = status_label w /\ toggle_btn w' = toggle_btn w /\
        color_threshold w' = color_threshold w) /\
  (forall w i j sm sl,
      nth_error (threads (step w i)) j = Some (Looping sm sl) ->
      nth_error (threads w) j = Some (Looping sm sl) \/
      exists env,
        i = Sched j env /\ nth_error (threads w) j = Some Spawned /\
        mana_png env = Some sm /\ life_png env = Some sl) /\
  (forall w i,
      grabs (trace (step w i)) <> grabs (trace w) ->
      exists tid env sm sl,
        i = Sched tid env /\ nth_error (threads w) tid = Some (Looping sm sl) /\
        monitoring w = true).
Proof.
  split; [exact prologue|]. split; [exact step_enters_loop | exact step_grabs].
Qed.

(** ** More on the masks *)

Lemma inRange_px_values (lowerb upperb px : pixel) :
  inRange_px lowerb upperb px = 0 \/ inRange_px lowerb upperb px = 255.
Proof.
  destruct lowerb as [[l0 l1] l2], upperb as [[u0 u1] u2], px as [[x0 x1] x2].
  unfold inRange_px. destruct (_ && _); auto.
Qed.

Lemma countNonZero_cons (a : Z) (m : mask) :
  countNonZero (a :: m) = (if nonzero a then 1 else 0) + countNonZero m.
Proof.
  unfold countNonZero. cbn [filter]. destruct (nonzero a); cbn [List.length]; lia.
Qed.

(** The red bands and the green band never hold for the same pixel. *)
Lemma red_green_exclusive (px : pixel) :
  let r := Z.lor (inRange_px (0, 50, 50) (10, 255, 255) px)
                 (inRange_px (170, 50, 50) (180, 255, 255) px) in
  let g := inRange_px (40, 50, 50) (90, 255, 255) px in
  (if nonzero (Z.lor r g) then 1 else 0)
  = (if nonzero r then 1 else 0) + (if nonzero g then 1 else 0).
Proof.
  destruct px as [[h s] v]. unfold inRange_px, within.
  split_leb; reflexivity.
Qed.

(** X1. In the life mask a pixel is set exactly when its hue lies in one of
    the bands [0, 10], [40, 90], [170, 180] and its saturation and value lie
    in [50, 255]; every other pixel is 0. *)
Theorem life_mask_at (img : image) (i : nat) (px : pixel) (h s v : Z) :
  nth_error img i = Some px ->
  bgr2hsv px = (h, s, v) ->
  nth_error (orb_mask bgr2hsv life img) i =
    Some (if life_hue h && within 50 s 255 && within 50 v 255 then 255 else 0).
Proof.
  intros Hi Hpx.
  assert (Hg : nth_error (get_green_mask bgr2hsv img) i
               = Some (inRange_px (40, 50, 50) (90, 255, 255) (bgr2hsv px)))
    by (unfold get_green_mask, inRange, cvtColor_BGR2HSV; now do 2 apply map_nth_error).
  change (orb_mask bgr2hsv life img) with
    (bitwise_or (get_red_mask bgr2hsv img) (get_green_mask bgr2hsv img)).
  rewrite (nth_error_bitwise_or _ _ i _ _ (red_mask_at img i px Hi) Hg).
  rewrite Hpx. unfold inRange_px, life_hue, within.
  split_leb; reflexivity.
Qed.

(** X2. A mask has one entry per pixel of the image, each 0 or 255, for both
    orbs; so [mask.size] is the number of pixels and [countNonZero] the
    number of matching ones. *)
Theorem orb_mask_shape (opt : Orb) (img : image) :
  size (orb_mask bgr2hsv opt img) = Z.of_nat (List.length img) /\
  Forall (fun v => v = 0 \/ v = 255) (orb_mask bgr2hsv opt img).
Proof.
  split; [unfold size; now rewrite length_orb_mask|].
  induction img as [|px img IH]; destruct opt; simpl in *; constructor;
    try exact IH.
  - apply inRange_px_values.
  - destruct (inRange_px_values (0, 50, 50) (10, 255, 255) (bgr2hsv px)) as [-> | ->],
      (inRange_px_values (170, 50, 50) (180, 255, 255) (bgr2hsv px)) as [-> | ->],
      (inRange_px_values (40, 50, 50) (90, 255, 255) (bgr2hsv px)) as [-> | ->];
      simpl; auto.
Qed.

(** X3. For the life orb the matching pixels are the red ones plus the green
    ones: no pixel is counted twice. *)
Theorem life_count_is_red_plus_green (img : image) :
  countNonZero (orb_mask bgr2hsv life img) =
  countNonZero (get_red_mask bgr2hsv img) + countNonZero (get_green_mask bgr2hsv img).
Proof.
  induction img as [|px img IH]; [reflexivity|].
  change (orb_mask bgr2hsv life (px :: img)) with
    (Z.lor (Z.lor (inRange_px (0, 50, 50) (10, 255, 255) (bgr2hsv px))
                  (inRange_px (170, 50, 50) (180, 255, 255) (bgr2hsv px)))
           (inRange_px (40, 50, 50) (90, 255, 255) (bgr2hsv px))
     :: orb_mask bgr2hsv life img).
  change (get_red_mask bgr2hsv (px :: img)) with
    (Z.lor (inRange_px (0, 50, 50) (10, 255, 255) (bgr2hsv px))
           (inRange_px (170, 50, 50) (180, 255, 255) (bgr2hsv px))
     :: get_red_mask bgr2hsv img).
  change (get_green_mask bgr2hsv (px :: img)) with
    (inRange_px (40, 50, 50) (90, 255, 255) (bgr2hsv px)
     :: get_green_mask bgr2hsv img).
  rewrite !countNonZero_cons, IH.
  pose proof (red_green_exclusive (bgr2hsv px)) as H. cbv zeta in H. lia.
Qed.


(** ** More on one thread step *)

Ltac thread_cases w :=
  destruct w as [mon opt mt thr latch key lbl entry btn ths tr];
  destruct mon, latch;
  unfold monitor_function, load_templates, cycle, react, presses;
  simpl in *; repeat break_match; simpl in *;
  rewrite ?pressed_keys_app, ?statuses_app, ?grabs_app in *; simpl in *;
  rewrite ?app_nil_r in *.

Lemma Qle_bool_false (a b : Q) : (b < a)%Q -> Qle_bool a b = false.
Proof.
  intros H. destruct (Qle_bool a b) eqn:E; [|reflexivity].
  apply Qle_bool_iff in E. exfalso. exact (Qlt_not_le _ _ H E).
Qed.

(** X5. A cycle whose best match scores below 0.7 grabs the monitor once and
    nothing else, shows "Orbs not detected", presses nothing and leaves run
    flag, latch and thread as they were, whatever the latch and whatever is
    on the screen. *)
Theorem localization_miss (tid : nat) (env : Env) (w : World) (sm sl : Z * Z) :
  nth_error (threads w) tid = Some (Looping sm sl) ->
  monitoring w = true ->
  (max_val env < template_threshold)%Q ->
  let w' := monitor_function tid env w in
  status_label w' = ("Orbs not detected", "blue") /\
  presses w' = presses w /\
  grabs (trace w') = grabs (trace w) ++ [Monitor1] /\
  monitoring w' = true /\
  protection_blocked w' = protection_blocked w /\
  nth_error (threads w') tid = Some (Looping sm sl).
Proof.
  destruct w as [mon opt mt thr latch key lbl entry btn ths tr]; simpl.
  intros Hth -> Hconf. apply Qle_bool_false in Hconf.
  unfold monitor_function, cycle, presses. simpl. rewrite Hth, Hconf.
  destruct (match opt with mana => sm | life => sl end) as [t_h t_w]. simpl.
  rewrite !pressed_keys_app, !grabs_app. simpl. rewrite !app_nil_r.
  repeat split; assumption.
Qed.

(** X6. A cycle whose best match scores at least 0.7 grabs the monitor and
    then the rectangle at the match, as wide and as high as the template of
    the orb selected at that moment; this holds whatever the colours and the
    latch are. *)
Theorem found_cycle_grabs (tid : nat) (env : Env) (w : World) (sm sl : Z * Z) :
  nth_error (threads w) tid = Some (Looping sm sl) ->
  monitoring w = true ->
  (template_threshold <= max_val env)%Q ->
  let shape := match monitor_option w with mana => sm | life => sl end in
  grabs (trace (monitor_function tid env w)) =
  grabs (trace w) ++
    [Monitor1; Rect (snd (max_loc env)) (fst (max_loc env)) (snd shape) (fst shape)].
Proof.
  destruct w as [mon opt mt thr latch key lbl entry btn ths tr]; simpl.
  intros Hth -> Hconf. apply Qle_bool_iff in Hconf.
  unfold monitor_function, cycle, react. simpl. rewrite Hth, Hconf.
  destruct (match opt with mana => sm | life => sl end) as [t_h t_w].
  destruct (max_loc env) as [x y]. simpl.
  destruct (orb_percent bgr2hsv opt (orb_img env)) as [p|]; simpl;
    [destruct latch; simpl;
       [|destruct (Qgt_bool p (inject_Z thr)); [|destruct (Qgt_bool p (1 # 10))]]|];
    simpl; rewrite ?grabs_app; simpl; rewrite ?app_nil_r, <- ?app_assoc;
    reflexivity.
Qed.

(** X7. A thread step never writes the configuration: threshold, selected
    orb, trigger key, entry text and the thread handle are as before, and no
    thread is added or removed. *)
Theorem thread_keeps_configuration (tid : nat) (env : Env) (w : World) :
  let w' := monitor_function tid env w in
  color_threshold w' = color_threshold w /\
  monitor_option w' = monitor_option w /\
  trigger_key w' = trigger_key w /\
  threshold_entry w' = threshold_entry w /\
  monitor_thread w' = monitor_thread w /\
  List.length (threads w') = List.length (threads w).
Proof.
  thread_cases w; rewrite ?length_replace_nth; repeat split.
Qed.

(** ** More on runs *)





(** X10. After a run has been started the entry and the threshold agree:
    the entry text parses to the threshold in use, whether the text was
    accepted or replaced by "10". *)
Theorem entry_agrees_with_threshold (w : World) :
  monitoring w = false ->
  py_int (threshold_entry (start_monitoring w))
  = Some (color_threshold (start_monitoring w)).
Proof.
  destruct w as [mon opt mt thr latch key lbl entry btn ths tr]; simpl.
  intros ->. unfold start_monitoring. simpl.
  destruct (py_int entry) eqn:E; simpl; [exact E | reflexivity].
Qed.

(** X11. With a threshold of 0 or less no step presses the key: a fill above
    0.1 is above the threshold. *)
Theorem nonpositive_threshold_never_triggers (w : World) (i : input) :
  color_threshold w <= 0 ->
  presses (step w i) = presses w.
Proof.
  intros Hthr. rewrite step_presses.
  destruct (negb (protection_blocked w) && protection_blocked (step w i)) eqn:E;
    [|apply app_nil_r].
  exfalso. apply andb_true_iff in E. destruct E as [E1 E2].
  apply negb_true_iff in E1. revert Hthr E1 E2.
  step_cases w i; intros; try discriminate;
    repeat match goal with
           | H : Qgt_bool _ _ = true |- _ => apply Qgt_bool_true in H
           | H : Qgt_bool _ _ = false |- _ => apply Qgt_bool_false in H
           end;
    match goal with
    | H1 : (?q <= inject_Z ?t)%Q, H2 : (1 # 10 < ?q)%Q |- _ =>
        unfold Qle, Qlt, inject_Z in H1, H2; simpl in H1, H2; nia
    end.
Qed.

Lemma orb_percent_range (opt : Orb) (img : image) (p : Q) :
  orb_percent bgr2hsv opt img = Some p -> (0 <= p <= inject_Z 100)%Q.
Proof.
  unfold orb_percent. intros Hp.
  destruct (orb_mask bgr2hsv opt img) as [|v m] eqn:E; [discriminate Hp|].
  destruct (percent_of_mask_value (v :: m)) as (p' & Hp' & _ & Hr); [discriminate|].
  rewrite Hp in Hp'. inversion Hp'; subst p'. exact Hr.
Qed.

(** X12. With a threshold of 100 or more, an unlatched cycle that finds the
    orb with a fill above 0.1 always presses the key and halts the run: the
    fill cannot exceed the threshold. *)
Theorem full_threshold_always_triggers
        (tid : nat) (env : Env) (w : World) (sm sl : Z * Z) (p : Q) :
  nth_error (threads w) tid = Some (Looping sm sl) ->
  monitoring w = true ->
  (template_threshold <= max_val env)%Q ->
  protection_blocked w = false ->
  orb_percent bgr2hsv (monitor_option w) (orb_img env) = Some p ->
  100 <= color_threshold w ->
  ((1 # 10) < p)%Q ->
  presses (monitor_function tid env w) = presses w ++ [trigger_key w] /\
  halted tid (monitor_function tid env w).
Proof.
  intros Hth Hmon Hconf Hlatch Hp Hthr Hlo.
  pose proof (found_cycle tid env w sm sl p Hth Hmon Hconf Hlatch Hp) as H.
  cbv zeta in H.
  assert (Hle : (p <= inject_Z (color_threshold w))%Q).
  { apply Qle_trans with (inject_Z 100); [apply (orb_percent_range _ _ _ Hp)|].
    rewrite <- Zle_Qle. exact Hthr. }
  replace (Qgt_bool p (inject_Z (color_threshold w))) with false in H
    by (symmetry; now apply Qgt_bool_false).
  replace (Qgt_bool p (1 # 10)) with true in H
    by (symmetry; now apply Qgt_bool_true).
  destruct H as (_ & Hk & Hh). now split.
Qed.





Lemma looping_step_grabs (tid : nat) (env : Env) (w : World) (sm sl : Z * Z) :
  nth_error (threads w) tid = Some (Looping sm sl) ->
  monitoring w = true ->
  exists rest,
    grabs (trace (monitor_function tid env w)) = grabs (trace w) ++ Monitor1 :: rest.
Proof.
  destruct w as [mon opt mt thr latch key lbl entry btn ths tr]; simpl.
  intros Hth ->.
  unfold monitor_function, cycle, react. simpl. rewrite Hth.
  destruct (match opt with mana => sm | life => sl end) as [t_h t_w].
  destruct (max_loc env) as [x y].
  destruct (Qle_bool template_threshold (max_val env)); simpl;
    [destruct (orb_percent bgr2hsv opt (orb_img env)) as [p|]; simpl;
       [destruct latch; simpl;
          [|destruct (Qgt_bool p (inject_Z thr)); [|destruct (Qgt_bool p (1 # 10))]]|]|];
    simpl; rewrite ?grabs_app; simpl; rewrite ?app_nil_r, <- ?app_assoc; simpl;
    eexists; reflexivity.
Qed.

(** X14. Stopping does not end a thread that is in the loop: if a run is
    started again before that thread is scheduled, the old thread is still
    in the loop next to the new one, the flag is up again, and the old
    thread's next step grabs the screen. *)
Theorem restart_keeps_old_thread (tid : nat) (env : Env) (w : World) (sm sl : Z * Z) :
  nth_error (threads w) tid = Some (Looping sm sl) ->
  let w' := start_monitoring (stop_monitoring w) in
  monitoring w' = true /\
  threads w' = threads w ++ [Spawned] /\
  nth_error (threads w') tid = Some (Looping sm sl) /\
  exists rest,
    grabs (trace (monitor_function tid env w')) = grabs (trace w') ++ Monitor1 :: rest.
Proof.
  intros Hth w'.
  destruct (stop_lowers w) as [Hf Hsame].
  destruct (start_spawns (stop_monitoring w) Hf) as (M & _ & T & _).
  fold w' in M, T. rewrite Hsame in T.
  assert (Hth' : nth_error (threads w') tid = Some (Looping sm sl)).
  { rewrite T, nth_error_app1; [exact Hth|].
    apply nth_error_Some. congruence. }
  repeat split; try assumption.
  now apply looping_step_grabs with (sm := sm) (sl := sl).
Qed.

(** ** More on the threshold entry *)












Lemma step_thread_count (w : World) (i : input) :
  List.length (threads (step w i))
  = (List.length (threads w) + (if starts_run i w then 1 else 0))%nat.
Proof.
  step_cases w i; rewrite ?length_replace_nth, ?length_app; simpl; lia.
Qed.

(** X17. Threads are created by runs and by nothing else: from the initial
    state the number of threads ever spawned equals the number of runs
    started, so a [start] that finds the flag up, a stop, a change of option
    or a thread step never adds one. *)
Theorem one_thread_per_run (ins : list input) :
  List.length (threads (run ins initial)) = runs_started ins initial.
Proof.
  assert (H : forall w,
             List.length (threads (run ins w))
             = (List.length (threads w) + runs_started ins w)%nat).
  { induction ins as [|i ins IH]; intros w; simpl; [lia|].
    rewrite IH, step_thread_count. lia. }
  rewrite H. reflexivity.
Qed.

End DecisionEngine.

(** * Worked examples, with the reference colour conversion *)

Ltac qcmp := vm_compute; first [reflexivity | discriminate].

(** Three cycles at 50%, 50% and 5% with threshold 10: two PROTECTED, then
    UNPROTECTED, one key press, and the thread gone. *)
Example protected_twice_then_trigger :
  let w := run hsv_of_bgr
             [Cmd start; Sched 0 (orb_seen 1 1); Sched 0 (orb_seen 50 100);
              Sched 0 (orb_seen 50 100); Sched 0 (orb_seen 5 100)] initial in
  statuses (trace w) = [("PROTECTED", "green"); ("PROTECTED", "green"); ("UNPROTECTED", "red")]
  /\ presses w = [esc] /\ halted 0 w.
Proof. vm_compute. repeat split. Qed.

(** Two cycles at 0.05% never trigger. *)
Example near_empty_never_triggers :
  let w := run hsv_of_bgr
             [Cmd start; Sched 0 (orb_seen 1 1); Sched 0 (orb_seen 1 2000);
              Sched 0 (orb_seen 1 2000)] initial in
  statuses (trace w) = [("Orbs not detected", "blue"); ("Orbs not detected", "blue")]
  /\ presses w = [] /\ monitoring w = true.
Proof. vm_compute. repeat split. Qed.

Example py_int_samples :
  map py_int ["10"; " 12 "; "-5"; "+7"; "1_000"; "1__0"; ""; "abc"; "3.5"; "- 5"]
  = [Some 10; Some 12; Some (-5); Some 7; Some 1000; None; None; None; None; None].
Proof. reflexivity. Qed.





(** C4, as first stated, fails: a process that runs twice reads the mana
    template twice (and not at all before its first run), and a thread that
    finds the template missing returns normally, the label still showing what
    it showed before. *)
Lemma templates_read_again_by_second_run :
  reads_of "mana_template.png" (trace initial) = 0%nat /\
  reads_of "mana_template.png" (trace (run hsv_of_bgr two_runs initial)) = 2%nat /\
  nth_error (threads (monitor_function hsv_of_bgr 0 mana_file_missing fresh_run)) 0
  = Some (Exited returned) /\
  status_label (monitor_function hsv_of_bgr 0 mana_file_missing fresh_run)
  = ("Monitoring stopped", "").
Proof. repeat split. Qed.

Lemma templates_loaded_by_each_run_witness :
  nth_error (threads fresh_run) 0 = Some Spawned /\
  monitoring (monitor_function hsv_of_bgr 0 mana_file_missing fresh_run) = true /\
  trace (monitor_function hsv_of_bgr 0 mana_file_missing fresh_run)
  = [ev_imread "mana_template.png" false; ev_imread "life_template.png" true;
     ev_print (template_error "mana_template.png")].
Proof.
  assert (H1 : nth_error (threads fresh_run) 0 = Some Spawned) by reflexivity.
  split; [assumption|].
  destruct (proj1 (templates_loaded_by_each_run hsv_of_bgr) 0%nat mana_file_missing
              fresh_run H1) as (line & t & Htr & _ & Hcase & Hm & _).
  simpl in Hcase. destruct Hcase as [-> _].
  split; [exact Hm | exact Htr].
Defined.


Lemma red_mask_hue_wrap_witness :
  nth_error [red_low; red_high; cyan] 1 = Some red_high /\
  hsv_of_bgr red_high = (178, 230, 200) /\
  nth_error (get_red_mask hsv_of_bgr [red_low; red_high; cyan]) 1 = Some 255.
Proof.
  assert (H1 : nth_error [red_low; red_high; cyan] 1 = Some red_high) by reflexivity.
  assert (H2 : hsv_of_bgr red_high = (178, 230, 200)) by reflexivity.
  repeat (split; [assumption|]).
  apply (proj1 (proj2 (red_mask_hue_wrap hsv_of_bgr [red_low; red_high; cyan] 1
                         red_high 178 230 200 H1 H2 ltac:(lia) ltac:(lia)))).
  right. reflexivity.
Defined.


Lemma start_stop_idempotent_witness :
  monitoring fresh_run = true /\ start_monitoring fresh_run = fresh_run /\
  monitoring initial = false /\ stop_monitoring initial = initial.
Proof.
  assert (H1 : monitoring fresh_run = true) by reflexivity.
  assert (H2 : monitoring initial = false) by reflexivity.
  split; [assumption|]. split.
  - exact (proj1 (proj1 (start_stop_idempotent fresh_run) H1)).
  - split; [assumption|].
    exact (proj1 (proj2 (start_stop_idempotent initial)) H2).
Defined.


(** * Worked instances of the further properties *)

Lemma life_mask_at_witness :
  nth_error [red_low; red_high; cyan] 2 = Some cyan /\
  hsv_of_bgr cyan = (90, 255, 200) /\
  nth_error (orb_mask hsv_of_bgr life [red_low; red_high; cyan]) 2 = Some 255.
Proof.
  assert (H1 : nth_error [red_low; red_high; cyan] 2 = Some cyan) by reflexivity.
  assert (H2 : hsv_of_bgr cyan = (90, 255, 200)) by reflexivity.
  split; [exact H1|]. split; [exact H2|].
  exact (life_mask_at hsv_of_bgr [red_low; red_high; cyan] 2 cyan 90 255 200 H1 H2).
Defined.


Lemma localization_miss_witness :
  nth_error (threads (looping_run hsv_of_bgr)) 0 = Some (Looping (40, 50) (40, 50)) /\
  monitoring (looping_run hsv_of_bgr) = true /\
  (max_val orb_not_seen < template_threshold)%Q /\
  status_label (monitor_function hsv_of_bgr 0 orb_not_seen (looping_run hsv_of_bgr))
  = ("Orbs not detected", "blue").
Proof.
  assert (H1 : nth_error (threads (looping_run hsv_of_bgr)) 0
               = Some (Looping (40, 50) (40, 50))) by reflexivity.
  assert (H2 : monitoring (looping_run hsv_of_bgr) = true) by reflexivity.
  assert (H3 : (max_val orb_not_seen < template_threshold)%Q) by reflexivity.
  split; [exact H1|]. split; [exact H2|]. split; [exact H3|].
  exact (proj1 (localization_miss hsv_of_bgr 0 orb_not_seen (looping_run hsv_of_bgr)
                  (40, 50) (40, 50) H1 H2 H3)).
Defined.

Lemma found_cycle_grabs_witness :
  nth_error (threads (looping_run hsv_of_bgr)) 0 = Some (Looping (40, 50) (40, 50)) /\
  monitoring (looping_run hsv_of_bgr) = true /\
  (template_threshold <= max_val (orb_seen 5 100))%Q /\
  grabs (trace (monitor_function hsv_of_bgr 0 (orb_seen 5 100) (looping_run hsv_of_bgr)))
  = [Monitor1; Rect 4 3 50 40].
Proof.
  assert (H1 : nth_error (threads (looping_run hsv_of_bgr)) 0
               = Some (Looping (40, 50) (40, 50))) by reflexivity.
  assert (H2 : monitoring (looping_run hsv_of_bgr) = true) by reflexivity.
  assert (H3 : (template_threshold <= max_val (orb_seen 5 100))%Q) by qcmp.
  split; [exact H1|]. split; [exact H2|]. split; [exact H3|].
  exact (found_cycle_grabs hsv_of_bgr 0 (orb_seen 5 100) (looping_run hsv_of_bgr)
           (40, 50) (40, 50) H1 H2 H3).
Defined.



Lemma entry_agrees_with_threshold_witness :
  monitoring (set_threshold_entry "abc" initial) = false /\
  py_int (threshold_entry (start_monitoring (set_threshold_entry "abc" initial)))
  = Some (color_threshold (start_monitoring (set_threshold_entry "abc" initial))).
Proof.
  assert (H : monitoring (set_threshold_entry "abc" initial) = false) by reflexivity.
  split; [exact H|].
  exact (entry_agrees_with_threshold (set_threshold_entry "abc" initial) H).
Defined.

Lemma nonpositive_threshold_never_triggers_witness :
  color_threshold (zero_threshold_run hsv_of_bgr) <= 0 /\
  presses (step hsv_of_bgr (zero_threshold_run hsv_of_bgr) (Sched 0 (orb_seen 5 100)))
  = presses (zero_threshold_run hsv_of_bgr).
Proof.
  assert (H : color_threshold (zero_threshold_run hsv_of_bgr) <= 0) by qcmp.
  split; [exact H|].
  exact (nonpositive_threshold_never_triggers hsv_of_bgr
           (zero_threshold_run hsv_of_bgr) (Sched 0 (orb_seen 5 100)) H).
Defined.

Lemma full_threshold_always_triggers_witness :
  100 <= color_threshold (full_threshold_run hsv_of_bgr) /\
  ((1 # 10) < 5000 # 100)%Q /\
  presses (monitor_function hsv_of_bgr 0 (orb_seen 50 100) (full_threshold_run hsv_of_bgr))
  = presses (full_threshold_run hsv_of_bgr)
    ++ [trigger_key (full_threshold_run hsv_of_bgr)].
Proof.
  assert (H1 : nth_error (threads (full_threshold_run hsv_of_bgr)) 0
               = Some (Looping (40, 50) (40, 50))) by reflexivity.
  assert (H2 : monitoring (full_threshold_run hsv_of_bgr) = true) by reflexivity.
  assert (H3 : (template_threshold <= max_val (orb_seen 50 100))%Q) by qcmp.
  assert (H4 : protection_blocked (full_threshold_run hsv_of_bgr) = false) by reflexivity.
  assert (H5 : orb_percent hsv_of_bgr (monitor_option (full_threshold_run hsv_of_bgr))
                 (orb_img (orb_seen 50 100)) = Some (5000 # 100)) by reflexivity.
  assert (H6 : 100 <= color_threshold (full_threshold_run hsv_of_bgr)) by qcmp.
  assert (H7 : ((1 # 10) < 5000 # 100)%Q) by reflexivity.
  split; [exact H6|]. split; [exact H7|].
  exact (proj1 (full_threshold_always_triggers hsv_of_bgr 0 (orb_seen 50 100)
                  (full_threshold_run hsv_of_bgr) (40, 50) (40, 50) (5000 # 100)
                  H1 H2 H3 H4 H5 H6 H7)).
Defined.


Lemma restart_keeps_old_thread_witness :
  nth_error (threads (looping_run hsv_of_bgr)) 0 = Some (Looping (40, 50) (40, 50)) /\
  threads (start_monitoring (stop_monitoring (looping_run hsv_of_bgr)))
  = threads (looping_run hsv_of_bgr) ++ [Spawned].
Proof.
  assert (H1 : nth_error (threads (looping_run hsv_of_bgr)) 0
               = Some (Looping (40, 50) (40, 50))) by reflexivity.
  split; [exact H1|].
  exact (proj1 (proj2 (restart_keeps_old_thread hsv_of_bgr 0 (orb_seen 5 100)
                         (looping_run hsv_of_bgr) (40, 50) (40, 50) H1))).
Defined.


